(** * otelcol.connector.spanmetrics: configuration model, validation and
      translation to the span-metrics connector's native configuration.

    Shallow embedding of
    [internal/component/otelcol/connector/spanmetrics/spanmetrics.go].

    Conventions of the embedding:
    - Go [int] and [time.Duration] (an [int64] count of nanoseconds) are [Z];
      the code only compares them with [0] and copies them.
    - A Go [error] built by [fmt.Errorf] is the value [Errorf msg]; [nil] is
      [None] in an [option error].
    - A function returning [(T, error)] returns a pair, as the code does.
    - A [[]string] is a slice header (array, offset, length, capacity) over a
      store of backing arrays, so that sharing of storage is visible; how far
      an allocation exceeds the cells requested is the runtime's choice and a
      parameter of the model ([Runtime]).
    - The sub-configurations declared in the package's other files (histogram,
      exemplars) and [otelcol.ConsumerArguments] are the fields of the class
      [Externals], over which the aggregate is parameterised. *)

From stdpp Require Import gmap strings list pretty.

Local Open Scope Z_scope.
Local Open Scope string_scope.

(** ** Errors and formatting *)

(** The [error] interface, as far as this package uses it: a message. *)
Inductive error : Type :=
| Errorf (msg : string).

(** [err.Error()]. *)
Definition Error (e : error) : string :=
  match e with Errorf msg => msg end.

(** [%v] applied to an [int]: decimal digits, with a leading minus sign for a
    negative number. *)
Definition fmt_int (n : Z) : string := pretty n.

(** [strings.HasPrefix s sub]. *)
Fixpoint has_prefix (s sub : string) {struct sub} : bool :=
  match sub, s with
  | EmptyString, _ => true
  | String c sub', String d s' => Ascii.eqb c d && has_prefix s' sub'
  | String _ _, EmptyString => false
  end.

(** [strings.Contains s sub]: [sub] occurs somewhere in [s]. *)
Fixpoint contains (s sub : string) : bool :=
  has_prefix s sub ||
  match s with
  | EmptyString => false
  | String _ s' => contains s' sub
  end.

(** ** Temporality vocabulary (lines 71-74) *)

Definition AggregationTemporalityCumulative : string := "CUMULATIVE".
Definition AggregationTemporalityDelta : string := "DELTA".

(** ** Temporality codec (lines 110-130) *)

Definition convertAggregationTemporality (temporality : string)
  : string * option error :=
  if String.eqb temporality AggregationTemporalityCumulative then
    ("AGGREGATION_TEMPORALITY_CUMULATIVE", None)
  else if String.eqb temporality AggregationTemporalityDelta then
    ("AGGREGATION_TEMPORALITY_DELTA", None)
  else
    ("", Some (Errorf ("invalid aggregation_temporality: " +:+ temporality))).

Definition FromOTelAggregationTemporality (temporality : string) : string :=
  if String.eqb temporality "AGGREGATION_TEMPORALITY_DELTA" then
    AggregationTemporalityDelta
  else if String.eqb temporality "AGGREGATION_TEMPORALITY_CUMULATIVE" then
    AggregationTemporalityCumulative
  else
    "".

(** ** String slices over a store of backing arrays *)

(** An allocated array is named by a location. *)
Abbreviation loc := positive.

(** The store: the contents of every allocated [[N]string] array. *)
Abbreviation store := (gmap positive (list string)).

(** A slice header. [arr = None] is the nil pointer; [off] is the index in the
    array of the slice's first element. *)
Record slice : Type := Slice {
  arr : option loc;
  off : nat;
  len : nat;
  cap : nat
}.

(** [[]string(nil)]. *)
Definition nil_slice : slice :=
  {| arr := None; off := 0; len := 0; cap := 0 |}.

(** The elements [s[0], ..., s[len(s)-1]] read from the store. *)
Definition elems (h : store) (s : slice) : list string :=
  match arr s with
  | None => []
  | Some l => take (len s) (drop (off s) (default [] (h !! l)))
  end.

(** A slice header is well formed in a store when its array is allocated and
    its window lies inside the array; the nil pointer carries no elements. *)
Definition slice_wf (h : store) (s : slice) : Prop :=
  (len s <= cap s)%nat /\
  match arr s with
  | None => cap s = 0%nat
  | Some l => exists a, h !! l = Some a /\ (off s + cap s <= length a)%nat
  end.

(** Overwrite the cells [i, i+1, ...] of an array with [xs]. *)
Fixpoint write_at (i : nat) (xs : list string) (a : list string) : list string :=
  match xs with
  | [] => a
  | x :: xs' => write_at (S i) xs' (<[i := x]> a)
  end.

(** The growth policy of the runtime, which the language leaves open (the new
    array is "sufficiently large") and which this file does not fix: when an
    [append] to a slice of capacity [c] needs [n] cells, the array allocated
    has [n + spare_capacity c n] cells, the runtime rounding the request up
    to an allocation size class. *)
Class Runtime : Type := {
  spare_capacity : nat -> nat -> nat
}.

(** The built-in [append(s, xs...)]: when the capacity of [s] suffices the
    elements are written in place behind [s]; otherwise a new array is
    allocated and receives the elements of [s] followed by [xs], the spare
    cells behind them holding the zero value of [string]. *)
Definition append `{Runtime} (s : slice) (xs : list string) (h : store)
  : slice * store :=
  let n := (len s + length xs)%nat in
  if (n <=? cap s)%nat then
    match arr s with
    | Some l =>
        ({| arr := Some l; off := off s; len := n; cap := cap s |},
         alter (write_at (off s + len s) xs) l h)
    | None => (s, h)
    end
  else
    let l := fresh (dom h) in
    let spare := spare_capacity (cap s) n in
    ({| arr := Some l; off := 0; len := n; cap := (n + spare)%nat |},
     <[l := (elems h s ++ xs ++ replicate spare "")%list]> h).

(** The assignment [s[i] = v]; out of range it panics and stores nothing. *)
Definition slice_set (s : slice) (i : nat) (v : string) (h : store)
  : option store :=
  match arr s with
  | Some l => if (i <? len s)%nat then Some (alter (<[(off s + i)%nat := v]>) l h)
              else None
  | None => None
  end.

(** ** Dimension descriptors *)

(** [Dimension], a name and an optional default ([*string]). *)
Record Dimension : Type := {
  Name : string;
  Default : option string
}.

(** [spanmetricsconnector.Dimension], the connector's shape of a dimension. *)
Record OtelDimension : Type := {
  Otel_Name : string;
  Otel_Default : option string
}.

(** Modelled from the spec: [Dimension.Convert] is declared in another file of
    the package; the specification says that it translates a descriptor into
    the connector's dimension shape, carrying the name and the default over. *)
Definition Dimension_Convert (d : Dimension) : OtelDimension :=
  {| Otel_Name := Name d; Otel_Default := Default d |}.

(** ** What the file takes from outside *)

(** Declared outside this file: the histogram and exemplars blocks of the
    package, the connector's shapes of them, the consumer arguments of package
    [otelcol], the two conversions that [Convert] delegates to, and the
    runtime under which the package runs. *)
Class Externals : Type := {
  Externals_Runtime :: Runtime;
  HistogramConfig : Type;
  ExemplarsConfig : Type;
  ConsumerArguments : Type;
  OtelHistogramConfig : Type;
  OtelExemplarsConfig : Type;
  (** the zero values of the two struct-typed blocks *)
  HistogramConfig_zero : HistogramConfig;
  ExemplarsConfig_zero : ExemplarsConfig;
  (** [HistogramConfig.Convert] returns a pointer and an [error]: either the
      converted block or an error *)
  Histogram_Convert : HistogramConfig -> OtelHistogramConfig + error;
  (** [ExemplarsConfig.Convert] returns a pointer and no error *)
  Exemplars_Convert : ExemplarsConfig -> OtelExemplarsConfig
}.

(** ** The configuration aggregate *)

Section Spanmetrics.

Context `{Externals}.

(** [Arguments] (lines 33-63). [Output] is a pointer. *)
Record Arguments : Type := {
  Dimensions : list Dimension;
  ExcludeDimensions : slice;
  DimensionsCacheSize : Z;
  AggregationTemporality : string;
  Histogram : HistogramConfig;
  MetricsFlushInterval : Z;
  Namespace : string;
  Exemplars : ExemplarsConfig;
  Output : option ConsumerArguments
}.

(** [spanmetricsconnector.Config], restricted to the fields that [Convert]
    sets. *)
Record Config : Type := {
  Config_Dimensions : list OtelDimension;
  Config_ExcludeDimensions : slice;
  Config_DimensionsCacheSize : Z;
  Config_AggregationTemporality : string;
  Config_Histogram : OtelHistogramConfig;
  Config_MetricsFlushInterval : Z;
  Config_Namespace : string;
  Config_Exemplars : OtelExemplarsConfig
}.

(** [time.Second], in nanoseconds. *)
Definition Second : Z := 1000000000.

(** [DefaultArguments] (lines 77-81): the fields that the composite literal
    leaves out hold their zero value. *)
Definition DefaultArguments : Arguments :=
  {| Dimensions := [];
     ExcludeDimensions := nil_slice;
     DimensionsCacheSize := 1000;
     AggregationTemporality := AggregationTemporalityCumulative;
     Histogram := HistogramConfig_zero;
     MetricsFlushInterval := 15 * Second;
     Namespace := "";
     Exemplars := ExemplarsConfig_zero;
     Output := None |}.

(** [SetToDefault] (lines 84-86): [*args = DefaultArguments]. The receiver
    is a pointer; the function returns the value stored through it. *)
Definition SetToDefault (args : Arguments) : Arguments :=
  DefaultArguments.

(** The assignment [args.AggregationTemporality = t]. *)
Definition set_AggregationTemporality (t : string) (args : Arguments)
  : Arguments :=
  {| Dimensions := Dimensions args;
     ExcludeDimensions := ExcludeDimensions args;
     DimensionsCacheSize := DimensionsCacheSize args;
     AggregationTemporality := t;
     Histogram := Histogram args;
     MetricsFlushInterval := MetricsFlushInterval args;
     Namespace := Namespace args;
     Exemplars := Exemplars args;
     Output := Output args |}.

(** [Validate] (lines 89-108); [None] is the [nil] error. *)
Definition Validate (args : Arguments) : option error :=
  if (DimensionsCacheSize args <=? 0)%Z then
    Some (Errorf ("invalid cache size: " +:+ fmt_int (DimensionsCacheSize args)
                  +:+ ", the maximum number of the items in the cache should be positive"))
  else if (MetricsFlushInterval args <=? 0)%Z then
    Some (Errorf "metrics_flush_interval must be greater than 0")
  else if String.eqb (AggregationTemporality args) AggregationTemporalityCumulative
          || String.eqb (AggregationTemporality args) AggregationTemporalityDelta then
    None
  else
    Some (Errorf ("invalid aggregation_temporality: " +:+ AggregationTemporality args)).

(** The loop of lines 134-137: every converted dimension is appended behind
    the ones converted before it. *)
Definition convert_dimensions (ds : list Dimension) : list OtelDimension :=
  fold_left (fun dimensions d => dimensions ++ [Dimension_Convert d])%list ds [].

(** [Convert] (lines 133-161). The result is the pair the code returns; the
    store is threaded because line 149 allocates. *)
Definition Convert (args : Arguments) (h : store)
  : (option Config * option error) * store :=
  let dimensions := convert_dimensions (Dimensions args) in
  match Histogram_Convert (Histogram args) with
  | inr err => ((None, Some err), h)
  | inl histogram =>
      match convertAggregationTemporality (AggregationTemporality args) with
      | (_, Some err) => ((None, Some err), h)
      | (aggregationTemporality, None) =>
          let '(excludeDimensions, h') :=
            append nil_slice (elems h (ExcludeDimensions args)) h in
          ((Some {| Config_Dimensions := dimensions;
                    Config_ExcludeDimensions := excludeDimensions;
                    Config_DimensionsCacheSize := DimensionsCacheSize args;
                    Config_AggregationTemporality := aggregationTemporality;
                    Config_Histogram := histogram;
                    Config_MetricsFlushInterval := MetricsFlushInterval args;
                    Config_Namespace := Namespace args;
                    Config_Exemplars := Exemplars_Convert (Exemplars args) |},
            None), h')
      end
  end.

(** [NextConsumers] (lines 174-176). *)
Definition NextConsumers (args : Arguments) : option ConsumerArguments :=
  Output args.

End Spanmetrics.

(** ** A concrete instance, for evaluating the definitions *)

(** The allocation size classes of the gc runtime up to 512 bytes. *)
Definition size_classes : list nat :=
  [8; 16; 24; 32; 48; 64; 80; 96; 112; 128; 144; 160; 176; 192; 208; 224; 240;
   256; 288; 320; 352; 384; 416; 448; 480; 512]%nat.

(** A growth policy for arrays of [string] (16 bytes a cell on a 64-bit
    platform): a request that fits a size class of [size_classes] receives the
    cells of the smallest such class; a larger one receives what it asks for. *)
Definition sample_runtime : Runtime :=
  {| spare_capacity := fun _ n =>
       match List.find (fun c => 16 * n <=? c)%nat size_classes with
       | Some c => (c / 16 - n)%nat
       | None => 0%nat
       end |}.

(** A histogram block is a flag telling whether its conversion fails; the
    other blocks carry nothing. *)
Definition sample_externals : Externals :=
  {| Externals_Runtime := sample_runtime;
     HistogramConfig := bool;
     ExemplarsConfig := unit;
     ConsumerArguments := unit;
     OtelHistogramConfig := unit;
     OtelExemplarsConfig := unit;
     HistogramConfig_zero := false;
     ExemplarsConfig_zero := tt;
     Histogram_Convert := fun failing : bool =>
       if failing then inr (Errorf "histogram: conversion failed") else inl tt;
     Exemplars_Convert := fun _ => tt |}.

(** A store with one array of two names, and a slice over the whole array. *)
Definition sample_store : store := {[ 1%positive := ["span.kind"; "status.code"] ]}.

Definition sample_exclude : slice :=
  {| arr := Some 1%positive; off := 0; len := 2; cap := 2 |}.

(** The two dimensions of the specification's example. *)
Definition sample_dimensions : list Dimension :=
  [ {| Name := "http.method"; Default := None |};
    {| Name := "http.status_code"; Default := Some "200" |} ].

Definition sample_args (cache : Z) (temporality : string) (failing : bool)
  (flush : Z) : @Arguments sample_externals :=
  {| Dimensions := sample_dimensions;
     ExcludeDimensions := sample_exclude;
     DimensionsCacheSize := cache;
     AggregationTemporality := temporality;
     Histogram := (failing : @HistogramConfig sample_externals);
     MetricsFlushInterval := flush;
     Namespace := "traces";
     Exemplars := tt;
     Output := None |}.

(** * Properties *)

(** ** Strings *)

Lemma append_empty_r (x : string) : x +:+ "" = x.
Proof.
  induction x as [|c x IH]; [reflexivity|].
  change (String c x +:+ "") with (String c (x +:+ "")). rewrite IH. reflexivity.
Qed.

Lemma has_prefix_app (x b : string) : has_prefix (x +:+ b) x = true.
Proof.
  induction x as [|c x IH]; simpl; [reflexivity|].
  rewrite Ascii.eqb_refl. exact IH.
Qed.

Lemma has_prefix_inv (s sub : string) :
  has_prefix s sub = true -> exists b, s = sub +:+ b.
Proof.
  revert s. induction sub as [|c sub IH]; intros s Hp.
  - exists s. reflexivity.
  - destruct s as [|d s]; simpl in Hp; [discriminate|].
    apply andb_true_iff in Hp as [Hc Hs].
    apply Ascii.eqb_eq in Hc. subst d.
    destruct (IH _ Hs) as [b ->]. exists b. reflexivity.
Qed.

Lemma contains_has_prefix (s sub : string) :
  has_prefix s sub = true -> contains s sub = true.
Proof.
  intros Hp. destruct s; simpl; rewrite Hp; reflexivity.
Qed.

(** [contains] finds every occurrence: a string built around [x] contains it. *)
Lemma contains_app (a x b : string) : contains (a +:+ x +:+ b) x = true.
Proof.
  induction a as [|c a IH].
  - change ("" +:+ x +:+ b) with (x +:+ b).
    apply contains_has_prefix, has_prefix_app.
  - change (String c a +:+ x +:+ b) with (String c (a +:+ x +:+ b)).
    simpl. rewrite IH. apply orb_true_r.
Qed.

(** [contains] finds nothing else. *)
Lemma contains_inv (s sub : string) :
  contains s sub = true -> exists a b, s = a +:+ sub +:+ b.
Proof.
  induction s as [|c s IH]; simpl; intros Hc.
  - rewrite orb_false_r in Hc. destruct sub; [|discriminate].
    exists "", "". reflexivity.
  - apply orb_true_iff in Hc as [Hp|Hc].
    + destruct (has_prefix_inv (String c s) sub Hp) as [b Hb].
      exists "", b. exact Hb.
    + destruct (IH Hc) as (a & b & ->). exists (String c a), b. reflexivity.
Qed.

(** ** The codec *)

Lemma convertAggregationTemporality_invalid (t : string) :
  t <> AggregationTemporalityCumulative ->
  t <> AggregationTemporalityDelta ->
  convertAggregationTemporality t =
    ("", Some (Errorf ("invalid aggregation_temporality: " +:+ t))).
Proof.
  intros Hc Hd. unfold convertAggregationTemporality.
  apply String.eqb_neq in Hc, Hd. rewrite Hc, Hd. reflexivity.
Qed.

Lemma convertAggregationTemporality_valid (t : string) :
  t = AggregationTemporalityCumulative \/ t = AggregationTemporalityDelta ->
  exists e, convertAggregationTemporality t = (e, None).
Proof.
  intros [-> | ->]; eexists; reflexivity.
Qed.

(** C4. Round trip of the temporality codec: on each of the two user-facing
    names the forward mapping succeeds, and the reverse mapping applied to
    its result gives the name back. *)
Theorem temporality_round_trip (x : string) :
  x = AggregationTemporalityCumulative \/ x = AggregationTemporalityDelta ->
  snd (convertAggregationTemporality x) = None /\
  FromOTelAggregationTemporality (fst (convertAggregationTemporality x)) = x.
Proof.
  intros [-> | ->]; split; reflexivity.
Qed.

Lemma temporality_round_trip_witness :
  (snd (convertAggregationTemporality "DELTA") = None /\
   FromOTelAggregationTemporality (fst (convertAggregationTemporality "DELTA"))
     = "DELTA") /\
  (snd (convertAggregationTemporality "CUMULATIVE") = None /\
   FromOTelAggregationTemporality (fst (convertAggregationTemporality "CUMULATIVE"))
     = "CUMULATIVE").
Proof.
  split.
  - apply (temporality_round_trip "DELTA"). right. reflexivity.
  - apply (temporality_round_trip "CUMULATIVE"). left. reflexivity.
Defined.

(** C5. The two directions of the codec treat unknown input differently: the
    forward mapping returns an error (and the empty string) on every string
    other than the two user-facing names, while the reverse mapping, which has
    no error result at all, returns the empty string on every string other
    than the two names of the connector. *)
Theorem codec_unknown_input :
  (forall t : string,
      t <> "CUMULATIVE" -> t <> "DELTA" ->
      exists err, convertAggregationTemporality t = ("", Some err) /\
                  Error err = "invalid aggregation_temporality: " +:+ t) /\
  (forall t : string,
      t <> "AGGREGATION_TEMPORALITY_DELTA" ->
      t <> "AGGREGATION_TEMPORALITY_CUMULATIVE" ->
      FromOTelAggregationTemporality t = "").
Proof.
  split.
  - intros t Hc Hd. eexists. split.
    + apply convertAggregationTemporality_invalid; assumption.
    + reflexivity.
  - intros t Hd Hc. unfold FromOTelAggregationTemporality.
    apply String.eqb_neq in Hc, Hd. rewrite Hd, Hc. reflexivity.
Qed.

Lemma codec_unknown_input_witness :
  (exists err, convertAggregationTemporality "delta" = ("", Some err) /\
               Error err = "invalid aggregation_temporality: delta") /\
  FromOTelAggregationTemporality "AGGREGATION_TEMPORALITY_UNSPECIFIED" = "".
Proof.
  split.
  - apply (proj1 codec_unknown_input "delta"); discriminate.
  - apply (proj2 codec_unknown_input "AGGREGATION_TEMPORALITY_UNSPECIFIED");
      discriminate.
Defined.

(** ** Defaulting and validation *)

Section ValidateProperties.

Context `{Externals}.

Lemma temporality_check (t : string) :
  String.eqb t AggregationTemporalityCumulative
  || String.eqb t AggregationTemporalityDelta = true <->
  t = "CUMULATIVE" \/ t = "DELTA".
Proof.
  rewrite orb_true_iff, !String.eqb_eq. reflexivity.
Qed.

Lemma Validate_None (args : Arguments) :
  Validate args = None <->
  0 < DimensionsCacheSize args /\
  0 < MetricsFlushInterval args /\
  (AggregationTemporality args = "CUMULATIVE" \/
   AggregationTemporality args = "DELTA").
Proof.
  unfold Validate.
  destruct (Z.leb_spec (DimensionsCacheSize args) 0) as [Hc|Hc].
  { split; [discriminate | lia]. }
  destruct (Z.leb_spec (MetricsFlushInterval args) 0) as [Hf|Hf].
  { split; [discriminate | lia]. }
  pose proof (temporality_check (AggregationTemporality args)) as Ht.
  destruct (String.eqb _ _ || String.eqb _ _).
  - split; [intros _ | reflexivity].
    repeat split; [assumption | assumption | apply Ht; reflexivity].
  - split; [discriminate|].
    intros (_ & _ & Hv). apply Ht in Hv. discriminate.
Qed.

(** C1. [Validate] returns no error exactly when the cache size is positive,
    the flush interval is positive and the temporality is one of the two
    names; whenever one of the three constraints is violated it returns an
    error. *)
Theorem Validate_succeeds_iff (args : Arguments) :
  (Validate args = None <->
     0 < DimensionsCacheSize args /\
     0 < MetricsFlushInterval args /\
     (AggregationTemporality args = "CUMULATIVE" \/
      AggregationTemporality args = "DELTA")) /\
  (DimensionsCacheSize args <= 0 \/
   MetricsFlushInterval args <= 0 \/
   (AggregationTemporality args <> "CUMULATIVE" /\
    AggregationTemporality args <> "DELTA") ->
   exists err, Validate args = Some err).
Proof.
  split; [apply Validate_None|].
  intros Hbad. destruct (Validate args) as [err|] eqn:Hv; [eauto|].
  apply Validate_None in Hv. destruct Hv as (Hc & Hf & Ht).
  destruct Hbad as [Hbad | [Hbad | [Hn1 Hn2]]]; [lia | lia |].
  destruct Ht; contradiction.
Qed.

(** C6. Whatever the value held before the call, after [SetToDefault] the
    cache size is 1000, the temporality is [CUMULATIVE], the flush interval
    is 15 seconds (in nanoseconds) and every other field holds its zero
    value; two calls on different values give the same result. *)
Theorem SetToDefault_overwrites (args : Arguments) :
  DimensionsCacheSize (SetToDefault args) = 1000 /\
  AggregationTemporality (SetToDefault args) = "CUMULATIVE" /\
  MetricsFlushInterval (SetToDefault args) = 15 * 1000000000 /\
  Dimensions (SetToDefault args) = [] /\
  ExcludeDimensions (SetToDefault args) = nil_slice /\
  Histogram (SetToDefault args) = HistogramConfig_zero /\
  Namespace (SetToDefault args) = "" /\
  Exemplars (SetToDefault args) = ExemplarsConfig_zero /\
  Output (SetToDefault args) = None /\
  forall args' : Arguments, SetToDefault args' = SetToDefault args.
Proof.
  repeat split; reflexivity.
Qed.

(** C7. [SetToDefault] followed by [Validate] returns no error, whatever the
    value defaulted. *)
Theorem SetToDefault_then_Validate (args : Arguments) :
  Validate (SetToDefault args) = None.
Proof.
  apply Validate_None. cbn.
  split; [lia | split; [unfold Second; lia | left; reflexivity]].
Qed.

(** C9, as amended. The message of [Validate] names the offending value of
    the check that fails: a cache size that is not positive is printed in
    the message; a temporality outside the two names is printed in the
    message when the two numeric checks, which come first, pass. In
    particular a defaulted value whose temporality is then set to ["delta"]
    fails with a message that contains ["delta"]. *)
Theorem Validate_message_names_value (args : Arguments) :
  (DimensionsCacheSize args <= 0 ->
   exists err, Validate args = Some err /\
     contains (Error err) (fmt_int (DimensionsCacheSize args)) = true) /\
  (0 < DimensionsCacheSize args -> 0 < MetricsFlushInterval args ->
   AggregationTemporality args <> "CUMULATIVE" ->
   AggregationTemporality args <> "DELTA" ->
   exists err, Validate args = Some err /\
     contains (Error err) (AggregationTemporality args) = true) /\
  (exists err,
     Validate (set_AggregationTemporality "delta" (SetToDefault args)) = Some err /\
     contains (Error err) "delta" = true).
Proof.
  split; [|split].
  - intros Hc. unfold Validate.
    destruct (Z.leb_spec (DimensionsCacheSize args) 0) as [_|Hc']; [|lia].
    eexists. split; [reflexivity|]. cbn [Error]. apply contains_app.
  - intros Hc Hf Hn1 Hn2. unfold Validate.
    destruct (Z.leb_spec (DimensionsCacheSize args) 0) as [Hc'|_]; [lia|].
    destruct (Z.leb_spec (MetricsFlushInterval args) 0) as [Hf'|_]; [lia|].
    apply String.eqb_neq in Hn1, Hn2.
    unfold AggregationTemporalityCumulative, AggregationTemporalityDelta.
    rewrite Hn1, Hn2. cbn [orb].
    eexists. split; [reflexivity|]. cbn [Error].
    rewrite <- (append_empty_r (AggregationTemporality args)) at 1.
    apply contains_app.
  - eexists. split; reflexivity.
Qed.

End ValidateProperties.

(** ** Slices and the store *)

Lemma append_nil_slice `{Runtime} (xs : list string) (h : store) :
  append nil_slice xs h =
    match xs with
    | [] => (nil_slice, h)
    | _ :: _ =>
        ({| arr := Some (fresh (dom h)); off := 0;
            len := length xs;
            cap := length xs + spare_capacity 0 (length xs) |},
         <[fresh (dom h) :=
             (xs ++ replicate (spare_capacity 0 (length xs)) "")%list]> h)
    end.
Proof.
  destruct xs as [|x xs]; reflexivity.
Qed.

(** A slice whose array is not the one written keeps its elements. *)
Lemma elems_alter_ne (g : list string -> list string) (l : loc) (h : store)
    (s : slice) :
  arr s <> Some l -> elems (alter g l h) s = elems h s.
Proof.
  intros Hne. unfold elems. destruct (arr s) as [l'|]; [|reflexivity].
  rewrite lookup_alter_ne; [reflexivity | congruence].
Qed.

Lemma elems_insert_ne (a : list string) (l : loc) (h : store) (s : slice) :
  arr s <> Some l -> elems (<[l := a]> h) s = elems h s.
Proof.
  intros Hne. unfold elems. destruct (arr s) as [l'|]; [|reflexivity].
  rewrite lookup_insert_ne; [reflexivity | congruence].
Qed.

(** The array of a well-formed slice is allocated, so it is not the one that
    the next allocation returns. *)
Lemma slice_wf_not_fresh (h : store) (s : slice) :
  slice_wf h s -> arr s <> Some (fresh (dom h)).
Proof.
  intros [_ Hwf] Heq. rewrite Heq in Hwf. destruct Hwf as (a & Ha & _).
  apply (is_fresh (dom h)). apply elem_of_dom. eauto.
Qed.

Lemma slice_wf_insert_fresh (a : list string) (h : store) (s : slice) :
  slice_wf h s -> slice_wf (<[fresh (dom h) := a]> h) s.
Proof.
  intros Hwf. pose proof (slice_wf_not_fresh h s Hwf) as Hne.
  destruct Hwf as [Hlen Hwf]. split; [exact Hlen|].
  destruct (arr s) as [l|]; [|exact Hwf].
  destruct Hwf as (b & Hb & Hcap). exists b. split; [|exact Hcap].
  rewrite lookup_insert_ne; [exact Hb | congruence].
Qed.

(** An element assignment through [s] leaves every slice over another array
    as it was. *)
Lemma slice_set_frame (s t : slice) (i : nat) (v : string) (h h' : store) :
  arr t <> arr s -> slice_set s i v h = Some h' -> elems h' t = elems h t.
Proof.
  intros Hne. unfold slice_set. destruct (arr s) as [l|]; [|discriminate].
  destruct (i <? len s)%nat; [|discriminate].
  intros [= <-]. apply elems_alter_ne. exact Hne.
Qed.

(** So does an [append] to [s], whether it writes in place or reallocates. *)
Lemma append_frame `{Runtime} (s t : slice) (xs : list string) (h h' : store) (s' : slice) :
  slice_wf h t -> (arr t = None \/ arr t <> arr s) ->
  append s xs h = (s', h') -> elems h' t = elems h t.
Proof.
  intros Hwf Hne. unfold append.
  destruct (len s + length xs <=? cap s)%nat.
  - destruct (arr s) as [l|]; intros [= <- <-]; [|reflexivity].
    apply elems_alter_ne. destruct Hne as [-> | Hne]; [discriminate | exact Hne].
  - intros [= <- <-]. apply elems_insert_ne, slice_wf_not_fresh, Hwf.
Qed.

(** What line 149 returns: the elements read, in a slice that is nil or sits
    alone on a newly allocated array. *)
Lemma append_nil_slice_elems `{Runtime} (xs : list string) (h h' : store)
    (s : slice) :
  append nil_slice xs h = (s, h') ->
  elems h' s = xs /\ slice_wf h' s /\
  (arr s = None \/ arr s = Some (fresh (dom h))) /\
  (h' = h \/ exists a, h' = <[fresh (dom h) := a]> h).
Proof.
  rewrite append_nil_slice. destruct xs as [|x xs]; intros [= <- <-].
  - split; [reflexivity|]. split; [split; [cbn; lia | reflexivity]|].
    split; left; reflexivity.
  - split; [|split; [split|split]].
    + unfold elems. cbn [arr off len]. rewrite lookup_insert_eq. cbn [default].
      apply (take_app_length (x :: xs)).
    + cbn [len cap]. lia.
    + cbn [arr off cap]. eexists. rewrite lookup_insert_eq. split; [reflexivity|].
      simpl. rewrite length_app, length_replicate. lia.
    + right. reflexivity.
    + right. eexists. reflexivity.
Qed.

(** ** Translation *)

Lemma fold_append_map {A B : Type} (g : A -> B) (ds : list A) (acc : list B) :
  fold_left (fun out d => out ++ [g d])%list ds acc = (acc ++ map g ds)%list.
Proof.
  revert acc. induction ds as [|d ds IH]; intros acc; simpl.
  - rewrite app_nil_r. reflexivity.
  - rewrite IH, <- app_assoc. reflexivity.
Qed.

Lemma convert_dimensions_map (ds : list Dimension) :
  convert_dimensions ds = map Dimension_Convert ds.
Proof.
  unfold convert_dimensions. apply (fold_append_map Dimension_Convert ds []).
Qed.

Section ConvertProperties.

Context `{Externals}.

(** The error paths of [Convert]: the histogram first, the codec second. *)
Lemma Convert_histogram_error (args : Arguments) (h : store) (err : error) :
  Histogram_Convert (Histogram args) = inr err ->
  Convert args h = ((None, Some err), h).
Proof.
  intros Hh. unfold Convert. rewrite Hh. reflexivity.
Qed.

Lemma Convert_temporality_error (args : Arguments) (h : store)
    (histogram : OtelHistogramConfig) :
  Histogram_Convert (Histogram args) = inl histogram ->
  AggregationTemporality args <> "CUMULATIVE" ->
  AggregationTemporality args <> "DELTA" ->
  Convert args h =
    ((None, snd (convertAggregationTemporality (AggregationTemporality args))), h).
Proof.
  intros Hh Hc Hd. unfold Convert. rewrite Hh.
  rewrite convertAggregationTemporality_invalid by assumption. reflexivity.
Qed.

(** The success path of [Convert]. *)
Lemma Convert_success (args : Arguments) (h : store)
    (histogram : OtelHistogramConfig) :
  Histogram_Convert (Histogram args) = inl histogram ->
  AggregationTemporality args = "CUMULATIVE" \/
  AggregationTemporality args = "DELTA" ->
  Convert args h =
    let out := append nil_slice (elems h (ExcludeDimensions args)) h in
    ((Some {| Config_Dimensions := convert_dimensions (Dimensions args);
              Config_ExcludeDimensions := fst out;
              Config_DimensionsCacheSize := DimensionsCacheSize args;
              Config_AggregationTemporality :=
                fst (convertAggregationTemporality (AggregationTemporality args));
              Config_Histogram := histogram;
              Config_MetricsFlushInterval := MetricsFlushInterval args;
              Config_Namespace := Namespace args;
              Config_Exemplars := Exemplars_Convert (Exemplars args) |},
      None), snd out).
Proof.
  intros Hh Ht. unfold Convert. rewrite Hh.
  destruct (convertAggregationTemporality_valid _ Ht) as [e He]. rewrite He.
  cbn zeta. destruct (append _ _ _) as [s h']. reflexivity.
Qed.

(** Whatever [Convert] returns, a configuration comes with no error and an
    error with no configuration. *)
Lemma Convert_result_shape (args : Arguments) (h : store) :
  (exists cfg h', Convert args h = ((Some cfg, None), h')) \/
  (exists err, Convert args h = ((None, Some err), h)).
Proof.
  unfold Convert. destruct (Histogram_Convert (Histogram args)) as [hc|err].
  - destruct (convertAggregationTemporality _) as [t [err|]].
    + right. eauto.
    + left. destruct (append _ _ _) as [s h']. eauto.
  - right. eauto.
Qed.

(** C2, as amended. On a value that [Validate] accepts and whose histogram
    block converts, [Convert] returns a configuration whose dimensions are the
    descriptors of the value, as many and in the same order, each with the
    name and the default of its descriptor; for the two descriptors
    [http.method] and [http.status_code] (default ["200"]) the result has
    exactly these two entries in this order. *)
Theorem Convert_preserves_dimensions (args : Arguments) (h : store)
    (histogram : OtelHistogramConfig) :
  Validate args = None ->
  Histogram_Convert (Histogram args) = inl histogram ->
  exists cfg h',
    Convert args h = ((Some cfg, None), h') /\
    length (Config_Dimensions cfg) = length (Dimensions args) /\
    (forall i d, Dimensions args !! i = Some d ->
       exists d', Config_Dimensions cfg !! i = Some d' /\
                  Otel_Name d' = Name d /\ Otel_Default d' = Default d) /\
    (Dimensions args =
       [ {| Name := "http.method"; Default := None |};
         {| Name := "http.status_code"; Default := Some "200" |} ] ->
     Config_Dimensions cfg =
       [ {| Otel_Name := "http.method"; Otel_Default := None |};
         {| Otel_Name := "http.status_code"; Otel_Default := Some "200" |} ]).
Proof.
  intros Hv Hh. apply Validate_None in Hv as (_ & _ & Ht).
  rewrite (Convert_success args h histogram Hh Ht). cbn zeta.
  eexists _, _. split; [reflexivity|]. cbn [Config_Dimensions].
  rewrite convert_dimensions_map. split; [apply length_map|]. split.
  - intros i d Hd. exists (Dimension_Convert d). split; [|split; reflexivity].
    rewrite list_lookup_fmap, Hd. reflexivity.
  - intros ->. reflexivity.
Qed.

(** C3. [Convert] on a temporality outside the two names returns an error
    and no configuration, the error being the one of the histogram
    conversion when that fails and the one of the codec otherwise; when the
    histogram conversion fails [Convert] returns that very error and no
    configuration; and no result of [Convert] carries both an error and a
    configuration. The store is left as it was on both paths. *)
Theorem Convert_error_paths (args : Arguments) (h : store) :
  (AggregationTemporality args <> "CUMULATIVE" ->
   AggregationTemporality args <> "DELTA" ->
   exists err, Convert args h = ((None, Some err), h) /\
     match Histogram_Convert (Histogram args) with
     | inr herr => err = herr
     | inl _ => convertAggregationTemporality (AggregationTemporality args)
                = ("", Some err)
     end) /\
  (forall herr, Histogram_Convert (Histogram args) = inr herr ->
     Convert args h = ((None, Some herr), h)) /\
  (snd (fst (Convert args h)) <> None -> fst (fst (Convert args h)) = None).
Proof.
  split; [|split].
  - intros Hc Hd.
    destruct (Histogram_Convert (Histogram args)) as [hc|herr] eqn:Hh.
    + pose proof (convertAggregationTemporality_invalid _ Hc Hd) as Hcodec.
      eexists. split; [|exact Hcodec].
      rewrite (Convert_temporality_error args h hc Hh Hc Hd), Hcodec.
      reflexivity.
    + exists herr. split; [|reflexivity].
      apply Convert_histogram_error. exact Hh.
  - intros herr Hh. apply Convert_histogram_error. exact Hh.
  - destruct (Convert_result_shape args h) as [(cfg & h' & ->) | (err & ->)].
    + intros Hne. contradiction Hne. reflexivity.
    + reflexivity.
Qed.

(** C10. [Convert] does not look at the numeric constraints: with one of the
    two temporality names and a histogram block that converts it returns a
    configuration, without error, that carries the cache size and the flush
    interval of the value as they are, also when they are zero or negative,
    in which case [Validate] rejects the same value. *)
Theorem Convert_skips_numeric_checks (args : Arguments) (h : store)
    (histogram : OtelHistogramConfig) :
  AggregationTemporality args = "CUMULATIVE" \/
  AggregationTemporality args = "DELTA" ->
  Histogram_Convert (Histogram args) = inl histogram ->
  (exists cfg h',
     Convert args h = ((Some cfg, None), h') /\
     Config_DimensionsCacheSize cfg = DimensionsCacheSize args /\
     Config_MetricsFlushInterval cfg = MetricsFlushInterval args) /\
  (DimensionsCacheSize args <= 0 \/ MetricsFlushInterval args <= 0 ->
   exists err, Validate args = Some err).
Proof.
  intros Ht Hh. split.
  - rewrite (Convert_success args h histogram Hh Ht). cbn zeta.
    eexists _, _. repeat split.
  - intros Hbad. destruct (Validate args) as [err|] eqn:Hv; [eauto|].
    apply Validate_None in Hv. lia.
Qed.

End ConvertProperties.

(** ** Independence of the copied exclusion list *)

Section ExcludeDimensionsCopy.

Context `{Externals}.

(** C8. When [Convert] returns a configuration, its exclusion list holds the
    elements of the list of the value, one by one, and shares no backing
    array with it: the two slices never name the same array, so that neither
    an element assignment nor an [append] through one of them changes what
    the other holds, and no write to the array of one changes the other. *)
Theorem Convert_exclude_independent (args : Arguments) (h h' : store)
    (cfg : Config) :
  slice_wf h (ExcludeDimensions args) ->
  Convert args h = ((Some cfg, None), h') ->
  let src := ExcludeDimensions args in
  let dst := Config_ExcludeDimensions cfg in
  elems h' dst = elems h src /\
  elems h' src = elems h src /\
  slice_wf h' src /\ slice_wf h' dst /\
  (forall l, arr src = Some l -> arr dst <> Some l) /\
  (forall l a, arr src = Some l -> elems (<[l := a]> h') dst = elems h' dst) /\
  (forall l a, arr dst = Some l -> elems (<[l := a]> h') src = elems h' src) /\
  (forall i v h'', slice_set src i v h' = Some h'' ->
     elems h'' dst = elems h' dst) /\
  (forall i v h'', slice_set dst i v h' = Some h'' ->
     elems h'' src = elems h' src) /\
  (forall xs s'' h'', append src xs h' = (s'', h'') ->
     elems h'' dst = elems h' dst) /\
  (forall xs s'' h'', append dst xs h' = (s'', h'') ->
     elems h'' src = elems h' src).
Proof.
  intros Hwf Hconv src dst.
  assert (Hout : append nil_slice (elems h src) h = (dst, h')).
  { subst src dst. revert Hconv. unfold Convert.
    destruct (Histogram_Convert (Histogram args)) as [hc|err]; [|discriminate].
    destruct (convertAggregationTemporality _) as [t [err|]]; [discriminate|].
    destruct (append _ _ _) as [s hs]. intros [= <- <-]. reflexivity. }
  change (slice_wf h src) in Hwf. clearbody src dst. clear Hconv.
  destruct (append_nil_slice_elems _ _ _ _ Hout) as (Hel & Hwfd & Harr & Hh').
  pose proof (slice_wf_not_fresh h src Hwf) as Hsrc.
  assert (Hsrc' : elems h' src = elems h src).
  { destruct Hh' as [-> | [a ->]]; [reflexivity|]. apply elems_insert_ne, Hsrc. }
  assert (Hwfs : slice_wf h' src).
  { destruct Hh' as [-> | [a ->]]; [exact Hwf|]. apply slice_wf_insert_fresh, Hwf. }
  assert (Hdisj : forall l, arr src = Some l -> arr dst <> Some l).
  { intros l Hl Hd. destruct Harr as [Hn | Hf]; congruence. }
  assert (Hne : arr dst = None \/ arr dst <> arr src).
  { destruct (arr src) as [l|] eqn:Hl.
    - right. apply Hdisj. reflexivity.
    - destruct (arr dst); [right; discriminate | left; reflexivity]. }
  assert (Hne' : arr src = None \/ arr src <> arr dst).
  { destruct Hne as [Hn | Hn]; [|right; congruence].
    destruct (arr src); [right; congruence | left; reflexivity]. }
  repeat match goal with |- _ /\ _ => split end.
  - rewrite Hel. reflexivity.
  - exact Hsrc'.
  - exact Hwfs.
  - exact Hwfd.
  - exact Hdisj.
  - intros l a Hl. apply elems_insert_ne, Hdisj, Hl.
  - intros l a Hl. apply elems_insert_ne. intros Hs.
    apply (Hdisj l Hs Hl).
  - intros i v h'' Hset. apply (slice_set_frame src dst i v h' h''); [|exact Hset].
    unfold slice_set in Hset. destruct (arr src) as [l|] eqn:Hl; [|discriminate].
    apply Hdisj. reflexivity.
  - intros i v h'' Hset. apply (slice_set_frame dst src i v h' h''); [|exact Hset].
    unfold slice_set in Hset. destruct (arr dst) as [l|] eqn:Hl; [|discriminate].
    intros Hs. apply (Hdisj l Hs). reflexivity.
  - intros xs s'' h'' Happ.
    apply (append_frame src dst xs h' h'' s'' Hwfd Hne Happ).
  - intros xs s'' h'' Happ.
    apply (append_frame dst src xs h' h'' s'' Hwfs Hne' Happ).
Qed.

End ExcludeDimensionsCopy.

(** ** The theorems at concrete values *)

Lemma sample_exclude_wf : slice_wf sample_store sample_exclude.
Proof.
  split; [cbn; lia|]. cbn [arr sample_exclude].
  exists ["span.kind"; "status.code"]. split; [reflexivity | cbn; lia].
Qed.

Lemma Validate_succeeds_iff_witness :
  Validate (sample_args 1000 "DELTA" false 1) = None /\
  (exists err, Validate (sample_args 0 "DELTA" false 1) = Some err) /\
  (exists err, Validate (sample_args 1000 "DELTA" false (-1)) = Some err) /\
  (exists err, Validate (sample_args 1000 "Delta" false 1) = Some err).
Proof.
  split; [|split; [|split]].
  - apply (proj1 (Validate_succeeds_iff (sample_args 1000 "DELTA" false 1))).
    cbn. split; [lia | split; [lia | right; reflexivity]].
  - apply (proj2 (Validate_succeeds_iff (sample_args 0 "DELTA" false 1))).
    left. cbn. lia.
  - apply (proj2 (Validate_succeeds_iff (sample_args 1000 "DELTA" false (-1)))).
    right. left. cbn. lia.
  - apply (proj2 (Validate_succeeds_iff (sample_args 1000 "Delta" false 1))).
    right. right. cbn. split; discriminate.
Defined.

Lemma Convert_preserves_dimensions_witness :
  Validate (sample_args 1000 "CUMULATIVE" false 15) = None /\
  exists cfg h',
    Convert (sample_args 1000 "CUMULATIVE" false 15) sample_store
      = ((Some cfg, None), h') /\
    Config_Dimensions cfg =
      [ {| Otel_Name := "http.method"; Otel_Default := None |};
        {| Otel_Name := "http.status_code"; Otel_Default := Some "200" |} ].
Proof.
  split; [reflexivity|].
  destruct (Convert_preserves_dimensions (sample_args 1000 "CUMULATIVE" false 15)
              sample_store tt eq_refl eq_refl) as (cfg & h' & Hc & _ & _ & Hd).
  exists cfg, h'. split; [exact Hc | apply Hd; reflexivity].
Defined.

(** C2, as the claim puts it, fails: [Validate], which does not look at the
    histogram block, accepts a value whose histogram block does not convert;
    [Convert] then returns the error of that conversion and no configuration,
    hence no dimensions. *)
Lemma Convert_preserves_dimensions_counterexample :
  Validate (sample_args 1000 "CUMULATIVE" true 15) = None /\
  Convert (sample_args 1000 "CUMULATIVE" true 15) sample_store
    = ((None, Some (Errorf "histogram: conversion failed")), sample_store) /\
  ~ (forall (E : Externals) (args : @Arguments E) (h : store),
       Validate args = None ->
       exists cfg h',
         Convert args h = ((Some cfg, None), h') /\
         length (Config_Dimensions cfg) = length (Dimensions args)).
Proof.
  split; [reflexivity|]. split; [reflexivity|].
  intros Hclaim.
  destruct (Hclaim sample_externals (sample_args 1000 "CUMULATIVE" true 15)
              sample_store eq_refl) as (cfg & h' & Hconv & _).
  discriminate Hconv.
Qed.

Lemma Convert_error_paths_witness :
  (exists err,
     Convert (sample_args 1000 "delta" false 15) sample_store
       = ((None, Some err), sample_store) /\
     convertAggregationTemporality "delta" = ("", Some err)) /\
  Convert (sample_args 1000 "DELTA" true 15) sample_store
    = ((None, Some (Errorf "histogram: conversion failed")), sample_store).
Proof.
  split.
  - apply (proj1 (Convert_error_paths (sample_args 1000 "delta" false 15)
                    sample_store)); discriminate.
  - apply (proj1 (proj2 (Convert_error_paths (sample_args 1000 "DELTA" true 15)
                           sample_store))).
    reflexivity.
Defined.

Lemma Convert_exclude_independent_witness :
  slice_wf sample_store sample_exclude /\
  exists cfg h',
    Convert (sample_args 1000 "DELTA" false 15) sample_store
      = ((Some cfg, None), h') /\
    elems h' (Config_ExcludeDimensions cfg) = ["span.kind"; "status.code"] /\
    (forall v h'', slice_set sample_exclude 0 v h' = Some h'' ->
       elems h'' (Config_ExcludeDimensions cfg) = elems h' (Config_ExcludeDimensions cfg)).
Proof.
  split; [exact sample_exclude_wf|].
  eexists _, _. split; [vm_compute; reflexivity|].
  match goal with
  | |- elems ?h' (Config_ExcludeDimensions ?cfg) = _ /\ _ =>
      pose proof (Convert_exclude_independent
                    (sample_args 1000 "DELTA" false 15) sample_store h' cfg
                    sample_exclude_wf eq_refl) as Hind
  end.
  cbv zeta in Hind. destruct Hind as (Hel & _ & _ & _ & _ & _ & _ & Hset & _).
  split; [rewrite Hel; reflexivity | exact (Hset 0%nat)].
Defined.

Lemma Validate_message_names_value_witness :
  (exists err, Validate (sample_args (-3) "DELTA" false 15) = Some err /\
               contains (Error err) "-3" = true) /\
  (exists err, Validate (sample_args 1000 "delta" false 15) = Some err /\
               contains (Error err) "delta" = true).
Proof.
  split.
  - apply (proj1 (Validate_message_names_value (sample_args (-3) "DELTA" false 15))).
    cbn. lia.
  - apply (proj1 (proj2 (Validate_message_names_value
                           (sample_args 1000 "delta" false 15))));
      cbn; try lia; discriminate.
Defined.

(** C9, as the claim puts it, fails: with a positive cache size, a flush
    interval of zero and the temporality ["delta"], [Validate] returns the
    message of the flush-interval check, in which ["delta"] does not occur. *)
Lemma Validate_message_counterexample :
  AggregationTemporality (sample_args 1000 "delta" false 0) <> "CUMULATIVE" /\
  AggregationTemporality (sample_args 1000 "delta" false 0) <> "DELTA" /\
  Validate (sample_args 1000 "delta" false 0)
    = Some (Errorf "metrics_flush_interval must be greater than 0") /\
  contains "metrics_flush_interval must be greater than 0" "delta" = false /\
  ~ (exists a b, "metrics_flush_interval must be greater than 0"
                 = a +:+ "delta" +:+ b).
Proof.
  split; [discriminate|]. split; [discriminate|]. split; [reflexivity|].
  split; [reflexivity|].
  intros (a & b & Heq).
  pose proof (contains_app a "delta" b) as Hc. rewrite <- Heq in Hc.
  discriminate Hc.
Qed.

Lemma Convert_skips_numeric_checks_witness :
  (exists cfg h',
     Convert (sample_args (-1) "DELTA" false 0) sample_store
       = ((Some cfg, None), h') /\
     Config_DimensionsCacheSize cfg = -1 /\
     Config_MetricsFlushInterval cfg = 0) /\
  (exists err, Validate (sample_args (-1) "DELTA" false 0) = Some err).
Proof.
  destruct (Convert_skips_numeric_checks (sample_args (-1) "DELTA" false 0)
              sample_store tt (or_intror eq_refl) eq_refl) as [Hc Hv].
  split; [exact Hc|]. apply Hv. left. cbn. lia.
Defined.

(** * Further properties of the codec, of validation and of translation *)

(** ** The codec, read in the other direction *)

(** Whenever the reverse mapping recognises a name of the connector, the
    forward mapping applied to its result gives that name back, without
    error. *)
Theorem FromOTel_then_convert (t : string) :
  FromOTelAggregationTemporality t <> "" ->
  convertAggregationTemporality (FromOTelAggregationTemporality t) = (t, None).
Proof.
  unfold FromOTelAggregationTemporality.
  destruct (String.eqb_spec t "AGGREGATION_TEMPORALITY_DELTA") as [-> | _];
    [reflexivity|].
  destruct (String.eqb_spec t "AGGREGATION_TEMPORALITY_CUMULATIVE") as [-> | _];
    [reflexivity|].
  intros Hne. contradiction Hne. reflexivity.
Qed.

Lemma FromOTel_then_convert_witness :
  FromOTelAggregationTemporality "AGGREGATION_TEMPORALITY_DELTA" <> "" /\
  convertAggregationTemporality
    (FromOTelAggregationTemporality "AGGREGATION_TEMPORALITY_DELTA")
    = ("AGGREGATION_TEMPORALITY_DELTA", None).
Proof.
  split; [discriminate|].
  apply (FromOTel_then_convert "AGGREGATION_TEMPORALITY_DELTA"). discriminate.
Defined.

(** The forward mapping loses nothing: two names that it maps, without error,
    to the same name of the connector are equal, and a name it returns without
    error is never the empty string that the reverse mapping uses for unknown
    input. *)
Theorem convertAggregationTemporality_injective (a b e : string) :
  convertAggregationTemporality a = (e, None) ->
  convertAggregationTemporality b = (e, None) ->
  a = b /\ e <> "" /\ FromOTelAggregationTemporality e = a.
Proof.
  unfold convertAggregationTemporality.
  destruct (String.eqb_spec a AggregationTemporalityCumulative) as [-> | _];
    [|destruct (String.eqb_spec a AggregationTemporalityDelta) as [-> | _];
      [|discriminate]];
    intros [= <-];
    (destruct (String.eqb_spec b AggregationTemporalityCumulative) as [-> | _];
     [|destruct (String.eqb_spec b AggregationTemporalityDelta) as [-> | _];
       [|discriminate]]);
    intros [=]; repeat split; discriminate.
Qed.

Lemma convertAggregationTemporality_injective_witness :
  "DELTA" = "DELTA" /\ "AGGREGATION_TEMPORALITY_DELTA" <> "" /\
  FromOTelAggregationTemporality "AGGREGATION_TEMPORALITY_DELTA" = "DELTA".
Proof.
  apply (convertAggregationTemporality_injective
           "DELTA" "DELTA" "AGGREGATION_TEMPORALITY_DELTA"); reflexivity.
Defined.

(** ** Validation and translation together *)

Section Pipeline.

Context `{Externals}.

(** What a successful [Convert] went through. *)
Lemma Convert_success_inv (args : Arguments) (h h' : store) (cfg : Config) :
  Convert args h = ((Some cfg, None), h') ->
  exists histogram,
    Histogram_Convert (Histogram args) = inl histogram /\
    (AggregationTemporality args = "CUMULATIVE" \/
     AggregationTemporality args = "DELTA") /\
    append nil_slice (elems h (ExcludeDimensions args)) h
      = (Config_ExcludeDimensions cfg, h') /\
    Config_Histogram cfg = histogram /\
    Config_AggregationTemporality cfg
      = fst (convertAggregationTemporality (AggregationTemporality args)) /\
    Config_DimensionsCacheSize cfg = DimensionsCacheSize args /\
    Config_MetricsFlushInterval cfg = MetricsFlushInterval args /\
    Config_Namespace cfg = Namespace args /\
    Config_Exemplars cfg = Exemplars_Convert (Exemplars args).
Proof.
  unfold Convert.
  destruct (Histogram_Convert (Histogram args)) as [hc|err]; [|discriminate].
  destruct (convertAggregationTemporality (AggregationTemporality args))
    as [t [err|]] eqn:Hcodec; [discriminate|].
  destruct (append _ _ _) as [s hs]. intros [= <- <-].
  exists hc. split; [reflexivity|]. split; [|repeat split].
  revert Hcodec. unfold convertAggregationTemporality.
  destruct (String.eqb_spec (AggregationTemporality args)
              AggregationTemporalityCumulative) as [Hc|_]; [left; exact Hc|].
  destruct (String.eqb_spec (AggregationTemporality args)
              AggregationTemporalityDelta) as [Hd|_]; [right; exact Hd|].
  discriminate.
Qed.

(** When the two numeric checks pass, [Validate] returns exactly what the
    codec used by [Convert] returns as its error: no error on the two names,
    and otherwise the same error with the same message. *)
Theorem Validate_agrees_with_codec (args : Arguments) :
  0 < DimensionsCacheSize args ->
  0 < MetricsFlushInterval args ->
  Validate args = snd (convertAggregationTemporality (AggregationTemporality args)).
Proof.
  intros Hc Hf. unfold Validate, convertAggregationTemporality.
  destruct (Z.leb_spec (DimensionsCacheSize args) 0) as [Hc'|_]; [lia|].
  destruct (Z.leb_spec (MetricsFlushInterval args) 0) as [Hf'|_]; [lia|].
  destruct (String.eqb _ AggregationTemporalityCumulative); [reflexivity|].
  destruct (String.eqb _ AggregationTemporalityDelta); reflexivity.
Qed.

(** [Validate] reads the cache size, the flush interval and the temporality,
    and nothing else: two values that agree on these three fields get the same
    answer, whatever their dimensions, exclusion list, histogram, namespace,
    exemplars and output are (an output that is nil is not rejected). *)
Theorem Validate_reads_three_fields (args args' : Arguments) :
  DimensionsCacheSize args = DimensionsCacheSize args' ->
  MetricsFlushInterval args = MetricsFlushInterval args' ->
  AggregationTemporality args = AggregationTemporality args' ->
  Validate args = Validate args'.
Proof.
  intros Hc Hf Ht. unfold Validate. rewrite Hc, Hf, Ht. reflexivity.
Qed.

(** [Convert] returns a configuration exactly when the histogram block
    converts and the temporality is one of the two names. *)
Theorem Convert_succeeds_iff (args : Arguments) (h : store) :
  (exists cfg h', Convert args h = ((Some cfg, None), h')) <->
  (exists histogram, Histogram_Convert (Histogram args) = inl histogram) /\
  (AggregationTemporality args = "CUMULATIVE" \/
   AggregationTemporality args = "DELTA").
Proof.
  split.
  - intros (cfg & h' & Hconv).
    destruct (Convert_success_inv args h h' cfg Hconv) as (hc & Hh & Ht & _).
    split; [exists hc; exact Hh | exact Ht].
  - intros [[hc Hh] Ht]. rewrite (Convert_success args h hc Hh Ht).
    cbn zeta. eexists _, _. reflexivity.
Qed.

(** On a value that [Validate] accepts, the only error that [Convert] can
    return is the one of the histogram conversion. *)
Theorem Convert_error_after_Validate (args : Arguments) (h h' : store)
    (err : error) :
  Validate args = None ->
  Convert args h = ((None, Some err), h') ->
  Histogram_Convert (Histogram args) = inr err /\ h' = h.
Proof.
  intros Hv. apply Validate_None in Hv as (_ & _ & Ht).
  destruct (Histogram_Convert (Histogram args)) as [hc|herr] eqn:Hh.
  - rewrite (Convert_success args h hc Hh Ht). cbn zeta. discriminate.
  - rewrite (Convert_histogram_error args h herr Hh). intros [= <- <-].
    split; reflexivity.
Qed.

(** A value that [Validate] accepts is translated into a configuration that
    meets the same constraints in the connector's terms: a positive cache
    size, a positive flush interval, and one of the two temporality names of
    the connector, from which the reverse mapping recovers the name of the
    value. *)
Theorem Convert_of_validated (args : Arguments) (h h' : store) (cfg : Config) :
  Validate args = None ->
  Convert args h = ((Some cfg, None), h') ->
  0 < Config_DimensionsCacheSize cfg /\
  0 < Config_MetricsFlushInterval cfg /\
  (Config_AggregationTemporality cfg = "AGGREGATION_TEMPORALITY_CUMULATIVE" \/
   Config_AggregationTemporality cfg = "AGGREGATION_TEMPORALITY_DELTA") /\
  FromOTelAggregationTemporality (Config_AggregationTemporality cfg)
    = AggregationTemporality args.
Proof.
  intros Hv Hconv. apply Validate_None in Hv as (Hc & Hf & Ht).
  destruct (Convert_success_inv args h h' cfg Hconv)
    as (hc & _ & _ & _ & _ & Hat & Hcs & Hfi & _).
  rewrite Hcs, Hfi, Hat. split; [exact Hc|]. split; [exact Hf|].
  destruct Ht as [-> | ->]; split; (left + right + idtac); reflexivity.
Qed.

(** The fields that [Convert] hands on without a check of its own: the
    namespace is copied, the histogram and exemplars blocks are the results of
    their own conversions, and the temporality is stored in the connector's
    vocabulary, from which the reverse mapping gives the original back. This
    holds for every successful call, validated or not. *)
Theorem Convert_passes_fields (args : Arguments) (h h' : store) (cfg : Config) :
  Convert args h = ((Some cfg, None), h') ->
  Config_Namespace cfg = Namespace args /\
  Histogram_Convert (Histogram args) = inl (Config_Histogram cfg) /\
  Config_Exemplars cfg = Exemplars_Convert (Exemplars args) /\
  convertAggregationTemporality (AggregationTemporality args)
    = (Config_AggregationTemporality cfg, None) /\
  FromOTelAggregationTemporality (Config_AggregationTemporality cfg)
    = AggregationTemporality args.
Proof.
  intros Hconv.
  destruct (Convert_success_inv args h h' cfg Hconv)
    as (hc & Hh & Ht & _ & Hhc & Hat & _ & _ & Hns & Hex).
  rewrite Hns, Hex, Hhc, Hat. split; [reflexivity|]. split; [exact Hh|].
  split; [reflexivity|]. destruct Ht as [-> | ->]; split; reflexivity.
Qed.

End Pipeline.

(** ** Translation and the store *)

Section ConvertStore.

Context `{Externals}.

(** [Convert] writes to no array that exists: every array of the store holds
    after the call what it held before, at most one array is added, and a call
    that returns an error leaves the store as it was. *)
Theorem Convert_preserves_store (args : Arguments) (h : store) :
  (forall l a, h !! l = Some a -> snd (Convert args h) !! l = Some a) /\
  (forall l, is_Some (snd (Convert args h) !! l) ->
     is_Some (h !! l) \/ l = fresh (dom h)) /\
  (fst (fst (Convert args h)) = None -> snd (Convert args h) = h).
Proof.
  destruct (Convert_result_shape args h) as [(cfg & h' & Hconv) | (err & ->)].
  - rewrite Hconv. cbn [fst snd].
    destruct (Convert_success_inv args h h' cfg Hconv)
      as (_ & _ & _ & Happ & _).
    destruct (append_nil_slice_elems _ _ _ _ Happ) as (_ & _ & _ & [-> | [b ->]]).
    + split; [auto|]. split; [auto | discriminate].
    + split; [|split; [|discriminate]].
      * intros l a Hl. rewrite lookup_insert_ne; [exact Hl|].
        intros <-. apply (is_fresh (dom h)). apply elem_of_dom. eauto.
      * intros l Hl. destruct (decide (l = fresh (dom h))) as [-> | Hne];
          [right; reflexivity | left].
        rewrite lookup_insert_ne in Hl by congruence. exact Hl.
  - cbn [fst snd]. split; [auto|]. split; [auto | reflexivity].
Qed.

(** The exclusion list of the configuration, by cases on the list of the
    value: an empty list, nil or not, gives the nil slice and allocates
    nothing; a list with elements gives a slice that starts at the beginning
    of a new array, not allocated before, whose first cells hold exactly these
    elements; its length is their number and its capacity, which is at least
    the length, is the size of the array. *)
Theorem Convert_exclude_shape (args : Arguments) (h h' : store) (cfg : Config) :
  Convert args h = ((Some cfg, None), h') ->
  (elems h (ExcludeDimensions args) = [] ->
   Config_ExcludeDimensions cfg = nil_slice /\ h' = h) /\
  (elems h (ExcludeDimensions args) <> [] ->
   exists l a,
     arr (Config_ExcludeDimensions cfg) = Some l /\
     off (Config_ExcludeDimensions cfg) = 0%nat /\
     len (Config_ExcludeDimensions cfg)
       = length (elems h (ExcludeDimensions args)) /\
     (len (Config_ExcludeDimensions cfg) <= cap (Config_ExcludeDimensions cfg))%nat /\
     h !! l = None /\
     h' = <[l := a]> h /\
     length a = cap (Config_ExcludeDimensions cfg) /\
     take (len (Config_ExcludeDimensions cfg)) a
       = elems h (ExcludeDimensions args)).
Proof.
  intros Hconv.
  destruct (Convert_success_inv args h h' cfg Hconv) as (_ & _ & _ & Happ & _).
  rewrite append_nil_slice in Happ.
  destruct (elems h (ExcludeDimensions args)) as [|x xs].
  - injection Happ as <- <-. split; [intros _; split; reflexivity|].
    intros Hne. contradiction Hne. reflexivity.
  - injection Happ as <- <-. split; [discriminate|]. intros _.
    eexists (fresh (dom h)), _. cbn [arr off len cap].
    split; [reflexivity|]. split; [reflexivity|]. split; [reflexivity|].
    split; [lia|]. split; [apply not_elem_of_dom, is_fresh|].
    split; [reflexivity|]. split.
    + simpl. rewrite length_app, length_replicate. reflexivity.
    + apply (take_app_length (x :: xs)).
Qed.

(** Two calls of [Convert] on the same value, the second in the store that
    the first leaves, give two configurations whose exclusion lists hold the
    same elements on different arrays: each call makes its own copy. *)
Theorem Convert_twice_independent (args : Arguments) (h h1 h2 : store)
    (cfg1 cfg2 : Config) :
  slice_wf h (ExcludeDimensions args) ->
  Convert args h = ((Some cfg1, None), h1) ->
  Convert args h1 = ((Some cfg2, None), h2) ->
  elems h2 (Config_ExcludeDimensions cfg1) = elems h (ExcludeDimensions args) /\
  elems h2 (Config_ExcludeDimensions cfg2) = elems h (ExcludeDimensions args) /\
  (forall l, arr (Config_ExcludeDimensions cfg1) = Some l ->
     arr (Config_ExcludeDimensions cfg2) <> Some l) /\
  (forall i v h3, slice_set (Config_ExcludeDimensions cfg1) i v h2 = Some h3 ->
     elems h3 (Config_ExcludeDimensions cfg2)
       = elems h2 (Config_ExcludeDimensions cfg2)) /\
  (forall i v h3, slice_set (Config_ExcludeDimensions cfg2) i v h2 = Some h3 ->
     elems h3 (Config_ExcludeDimensions cfg1)
       = elems h2 (Config_ExcludeDimensions cfg1)).
Proof.
  intros Hwf Hc1 Hc2.
  destruct (Convert_success_inv args h h1 cfg1 Hc1) as (_ & _ & _ & Ha1 & _).
  destruct (Convert_success_inv args h1 h2 cfg2 Hc2) as (_ & _ & _ & Ha2 & _).
  set (src := ExcludeDimensions args) in *.
  set (d1 := Config_ExcludeDimensions cfg1) in *.
  set (d2 := Config_ExcludeDimensions cfg2) in *.
  clearbody src d1 d2. clear Hc1 Hc2.
  destruct (append_nil_slice_elems _ _ _ _ Ha1) as (He1 & Hwf1 & _ & Hh1).
  destruct (append_nil_slice_elems _ _ _ _ Ha2) as (He2 & Hwf2 & Harr2 & Hh2).
  assert (Hsrc1 : elems h1 src = elems h src).
  { destruct Hh1 as [-> | [a1 ->]]; [reflexivity|].
    apply elems_insert_ne, slice_wf_not_fresh, Hwf. }
  pose proof (slice_wf_not_fresh h1 d1 Hwf1) as Hd1.
  assert (Hd1' : elems h2 d1 = elems h1 d1).
  { destruct Hh2 as [-> | [a2 ->]]; [reflexivity|]. apply elems_insert_ne, Hd1. }
  assert (Hdisj : forall l, arr d1 = Some l -> arr d2 <> Some l).
  { intros l Hl Hl2. destruct Harr2 as [Hn | Hf]; congruence. }
  split; [rewrite Hd1', He1; reflexivity|].
  split; [rewrite He2; exact Hsrc1|].
  split; [exact Hdisj|]. split.
  - intros i v h3 Hset. apply (slice_set_frame d1 d2 i v h2 h3); [|exact Hset].
    unfold slice_set in Hset. destruct (arr d1) as [l|] eqn:Hl; [|discriminate].
    intros Heq. apply (Hdisj l eq_refl Heq).
  - intros i v h3 Hset. apply (slice_set_frame d2 d1 i v h2 h3); [|exact Hset].
    unfold slice_set in Hset. destruct (arr d2) as [l|] eqn:Hl; [|discriminate].
    intros Heq. apply (Hdisj l Heq eq_refl).
Qed.

End ConvertStore.

(** ** The further properties at concrete values *)

Lemma Convert_preserves_store_witness :
  snd (Convert (sample_args 1000 "DELTA" false 15) sample_store) !! 1%positive
    = Some ["span.kind"; "status.code"] /\
  snd (Convert (sample_args 1000 "delta" false 15) sample_store) = sample_store.
Proof.
  split.
  - apply (proj1 (Convert_preserves_store (sample_args 1000 "DELTA" false 15)
                    sample_store)).
    reflexivity.
  - apply (proj2 (proj2 (Convert_preserves_store
                           (sample_args 1000 "delta" false 15) sample_store))).
    reflexivity.
Defined.

Lemma Convert_exclude_shape_witness :
  exists cfg h',
    Convert (sample_args 1000 "DELTA" false 15) sample_store
      = ((Some cfg, None), h') /\
    exists l a,
      arr (Config_ExcludeDimensions cfg) = Some l /\
      len (Config_ExcludeDimensions cfg) = 2%nat /\
      sample_store !! l = None /\
      h' = <[l := a]> sample_store /\
      take 2 a = ["span.kind"; "status.code"].
Proof.
  eexists _, _. split; [vm_compute; reflexivity|].
  match goal with
  | |- exists l a, arr (Config_ExcludeDimensions ?cfg) = _ /\ _ /\ _ /\ ?h' = _ /\ _ =>
      destruct (proj2 (Convert_exclude_shape
                         (sample_args 1000 "DELTA" false 15)
                         sample_store h' cfg eq_refl))
        as (l & a & Harr & _ & Hlen & _ & Hnew & Hh' & _ & Htake);
        [discriminate|]
  end.
  exists l, a. split; [exact Harr|]. split; [exact Hlen|].
  split; [exact Hnew|]. split; [exact Hh'|].
  rewrite Hlen in Htake. exact Htake.
Defined.

Lemma Validate_agrees_with_codec_witness :
  Validate (sample_args 1000 "delta" false 15)
    = Some (Errorf "invalid aggregation_temporality: delta") /\
  Validate (sample_args 1000 "DELTA" false 15) = None.
Proof.
  split.
  - rewrite (Validate_agrees_with_codec (sample_args 1000 "delta" false 15));
      [reflexivity | cbn; lia | cbn; lia].
  - rewrite (Validate_agrees_with_codec (sample_args 1000 "DELTA" false 15));
      [reflexivity | cbn; lia | cbn; lia].
Defined.

Lemma Validate_reads_three_fields_witness :
  Validate (sample_args 1000 "CUMULATIVE" true 15000000000)
    = Validate (SetToDefault (sample_args 0 "" false 0)).
Proof.
  apply (Validate_reads_three_fields
           (sample_args 1000 "CUMULATIVE" true 15000000000)
           (SetToDefault (sample_args 0 "" false 0))); reflexivity.
Defined.

Lemma Convert_succeeds_iff_witness :
  (exists cfg h', Convert (sample_args 0 "DELTA" false 0) sample_store
                    = ((Some cfg, None), h')) /\
  ~ (exists cfg h', Convert (sample_args 1000 "DELTA" true 15) sample_store
                      = ((Some cfg, None), h')).
Proof.
  split.
  - apply (proj2 (Convert_succeeds_iff (sample_args 0 "DELTA" false 0)
                    sample_store)).
    split; [exists tt; reflexivity | right; reflexivity].
  - intros Hok.
    apply (proj1 (Convert_succeeds_iff (sample_args 1000 "DELTA" true 15)
                    sample_store)) in Hok.
    destruct Hok as [[hc Hh] _]. discriminate Hh.
Defined.

Lemma Convert_error_after_Validate_witness :
  Validate (sample_args 1000 "DELTA" true 15) = None /\
  @Histogram_Convert sample_externals true
    = inr (Errorf "histogram: conversion failed").
Proof.
  split; [reflexivity|].
  apply (Convert_error_after_Validate (sample_args 1000 "DELTA" true 15)
           sample_store sample_store (Errorf "histogram: conversion failed")
           eq_refl eq_refl).
Defined.

Lemma Convert_of_validated_witness :
  exists cfg h',
    Convert (sample_args 1000 "DELTA" false 15) sample_store
      = ((Some cfg, None), h') /\
    0 < Config_DimensionsCacheSize cfg /\
    0 < Config_MetricsFlushInterval cfg /\
    FromOTelAggregationTemporality (Config_AggregationTemporality cfg) = "DELTA".
Proof.
  eexists _, _. split; [vm_compute; reflexivity|].
  match goal with
  | |- 0 < Config_DimensionsCacheSize ?cfg /\ _ =>
      destruct (Convert_of_validated (sample_args 1000 "DELTA" false 15)
                  sample_store _ cfg eq_refl eq_refl) as (Hc & Hf & _ & Ht)
  end.
  split; [exact Hc | split; [exact Hf | exact Ht]].
Defined.

Lemma Convert_passes_fields_witness :
  exists cfg h',
    Convert (sample_args (-1) "CUMULATIVE" false 0) sample_store
      = ((Some cfg, None), h') /\
    Config_Namespace cfg = "traces" /\
    FromOTelAggregationTemporality (Config_AggregationTemporality cfg)
      = "CUMULATIVE".
Proof.
  eexists _, _. split; [vm_compute; reflexivity|].
  match goal with
  | |- Config_Namespace ?cfg = _ /\ _ =>
      destruct (Convert_passes_fields (sample_args (-1) "CUMULATIVE" false 0)
                  sample_store _ cfg eq_refl) as (Hns & _ & _ & _ & Ht)
  end.
  split; [exact Hns | exact Ht].
Defined.

Lemma Convert_twice_independent_witness :
  exists cfg1 h1 cfg2 h2,
    Convert (sample_args 1000 "DELTA" false 15) sample_store
      = ((Some cfg1, None), h1) /\
    Convert (sample_args 1000 "DELTA" false 15) h1 = ((Some cfg2, None), h2) /\
    elems h2 (Config_ExcludeDimensions cfg1) = ["span.kind"; "status.code"] /\
    elems h2 (Config_ExcludeDimensions cfg2) = ["span.kind"; "status.code"] /\
    arr (Config_ExcludeDimensions cfg1) <> arr (Config_ExcludeDimensions cfg2).
Proof.
  eexists _, _, _, _. split; [vm_compute; reflexivity|].
  split; [vm_compute; reflexivity|].
  match goal with
  | |- elems ?h2 (Config_ExcludeDimensions ?cfg1) = _ /\
       elems _ (Config_ExcludeDimensions ?cfg2) = _ /\ _ =>
      destruct (Convert_twice_independent (sample_args 1000 "DELTA" false 15)
                  sample_store _ h2 cfg1 cfg2 sample_exclude_wf eq_refl eq_refl)
        as (He1 & He2 & Hdisj & _)
  end.
  split; [rewrite He1; reflexivity|]. split; [rewrite He2; reflexivity|].
  intros Heq. apply (Hdisj 2%positive eq_refl). rewrite <- Heq. reflexivity.
Defined.
